(** * Geolib_API_test: the D-Sheet output patcher and the model builder

    Two scripts are embedded here.

    - [dsheet_fix_output.py] (module [Patcher]): reads [dsheet_test.shd] with
      [readlines], then rewrites the same file line by line, writing a fixed
      version line in place of line 8.
    - [dsheet_test.py] (module [Builder]): a straight-line script that issues
      a fixed sequence of calls to the geolib D-Sheet Piling model.

    Definitions come first, the proofs follow in [StrFacts], [PatcherFacts]
    and [BuilderFacts]. *)

From stdpp Require Import list strings.
From Stdlib Require Import Ascii QArith.

Local Open Scope string_scope.
Local Open Scope nat_scope.

(** ** Strings *)

Module Str.

Definition LF : ascii := "010"%char.
Definition CR : ascii := "013"%char.

(** [s[-1:]]: the last character of a string, if any. *)
Fixpoint last_char (s : string) : option ascii :=
  match s with
  | EmptyString => None
  | String c EmptyString => Some c
  | String _ rest => last_char rest
  end.

(** [c in s]. *)
Fixpoint has_char (c : ascii) (s : string) : bool :=
  match s with
  | EmptyString => false
  | String d rest => if Ascii.eqb d c then true else has_char c rest
  end.

(** [''.join(ls)]. *)
Definition join (ls : list string) : string := foldr String.append "" ls.

End Str.

(** ** The output patcher, [dsheet_fix_output.py] *)

Module Patcher.
Import Str.

(** *** The text layer of [open]

    Both [open] calls use text mode with the default [newline=None].  On
    reading, every ["\r\n"] and every remaining ["\r"] is delivered as
    ["\n"]; on writing, every ["\n"] is stored as [os.linesep].  A file on
    disk is the string of its characters; the codec is not modelled (it is
    a bijection between the files it accepts and their texts). *)

Inductive platform := Posix | Windows.

Definition linesep (os : platform) : string :=
  match os with
  | Posix => String LF ""
  | Windows => String CR (String LF "")
  end.

(** Reading: universal newlines. *)
Fixpoint universal_newlines (disk : string) : string :=
  match disk with
  | EmptyString => EmptyString
  | String c rest =>
      if Ascii.eqb c CR then
        match rest with
        | String d rest' =>
            if Ascii.eqb d LF then String LF (universal_newlines rest')
            else String LF (universal_newlines rest)
        | EmptyString => String LF EmptyString
        end
      else String c (universal_newlines rest)
  end.

(** Writing: ["\n"] becomes the platform's line separator. *)
Fixpoint translate_newlines (os : platform) (text : string) : string :=
  match text with
  | EmptyString => EmptyString
  | String c rest =>
      if Ascii.eqb c LF then linesep os +:+ translate_newlines os rest
      else String c (translate_newlines os rest)
  end.

(** [f.readlines()] on a text: the text cut after every ["\n"], each line
    keeping its terminator; a last line without terminator is kept as it
    is, and no empty line is ever produced. *)
Fixpoint readlines (text : string) : list string :=
  match text with
  | EmptyString => []
  | String c rest =>
      if Ascii.eqb c LF then String c EmptyString :: readlines rest
      else match readlines rest with
           | [] => [String c EmptyString]
           | l :: ls => String c l :: ls
           end
  end.

(** [enumerate(xs, start)]. *)
Fixpoint enumerate {A} (start : nat) (xs : list A) : list (nat * A) :=
  match xs with
  | [] => []
  | x :: xs' => (start, x) :: enumerate (S start) xs'
  end.

(** Iterating a [str] yields its characters as one-character strings. *)
Fixpoint chars (s : string) : list string :=
  match s with
  | EmptyString => []
  | String c rest => String c EmptyString :: chars rest
  end.

(** [f.writelines(items)] appends every item to what has been written so
    far.  The script passes a [str], so the items are its characters. *)
Definition writelines (written : string) (items : list string) : string :=
  foldl String.append written items.

Definition version_line : string :=
  "CREATED BY : D-Sheet Piling version 19.3.1.27104 " +:+ String LF "".

(** The body of the [for i, line in enumerate(get_all, 1)] loop. *)
Definition loop_body (written : string) (il : nat * string) : string :=
  let '(i, line) := il in
  if Nat.eqb i 8 then writelines written (chars version_line)
  else writelines written (chars line).

(** The second [with] block: the file is truncated by [open(.., 'w')] and
    the loop runs over the lines read before. *)
Definition rewrite_lines (get_all : list string) : string :=
  foldl loop_body "" (enumerate 1 get_all).

(** The strings the loop writes, one per line read: what [enumerate] and the
    test [i == 8] select. *)
Definition written_items (start : nat) (get_all : list string) : list string :=
  (λ il : nat * string, if Nat.eqb il.1 8 then version_line else il.2)
    <$> enumerate start get_all.

(** A line as [readlines] returns it: terminated by its only ["\n"], or, for
    the last line of a file, not empty and without any ["\n"]. *)
Definition terminated (l : string) : Prop :=
  ∃ body, l = body +:+ String LF "" ∧ has_char LF body = false.

Definition unterminated (l : string) : Prop :=
  l ≠ "" ∧ has_char LF l = false.

Inductive wf_lines : list string → Prop :=
| wf_lines_nil : wf_lines []
| wf_lines_last l : unterminated l → wf_lines [l]
| wf_lines_cons l ls : terminated l → wf_lines ls → wf_lines (l :: ls).

(** The lines the script reads from the file on disk. *)
Definition file_lines (disk : string) : list string :=
  readlines (universal_newlines disk).

(** The whole script: from the file on disk before to the file on disk
    after. *)
Definition patcher (os : platform) (disk : string) : string :=
  let get_all := file_lines disk in
  translate_newlines os (rewrite_lines get_all).

(** Line [k] of a file, counted from 1 as the script counts them. *)
Definition line (k : nat) (disk : string) : option string :=
  match k with
  | 0 => None
  | S i => file_lines disk !! i
  end.

(** The line endings of a file are those of the platform: writing back the
    text read gives the same file. *)
Definition native_newlines (os : platform) (disk : string) : Prop :=
  translate_newlines os (universal_newlines disk) = disk.

(** Sample files. *)
Definition crlf : string := String CR (String LF "").
Definition lf : string := String LF "".

Definition ten_lines_crlf : string :=
  join ((λ l, l +:+ crlf) <$>
        ["one"; "two"; "three"; "four"; "five"; "six"; "seven";
         "CREATED BY : D-Sheet Piling version 20.1.1.1 "; "nine"; "ten"]).

Definition two_lines_crlf : string := "one" +:+ crlf +:+ "two" +:+ crlf.
Definition two_lines_lf : string := "one" +:+ lf +:+ "two" +:+ lf.

Definition eight_lines_open : string :=
  join ((λ l, l +:+ lf) <$>
        ["one"; "two"; "three"; "four"; "five"; "six"; "seven"])
  +:+ "CREATED BY : D-Sheet Piling version 20.1.1.1".

(** The lines of a file as they lie on disk: its bytes cut after every
    ["\n"], nothing translated. *)
Definition disk_lines (disk : string) : list string := readlines disk.

Definition disk_line (k : nat) (disk : string) : option string :=
  match k with
  | 0 => None
  | S i => disk_lines disk !! i
  end.

Definition ten_lines_lf : string :=
  join ((λ l, l +:+ lf) <$>
        ["one"; "two"; "three"; "four"; "five"; "six"; "seven";
         "CREATED BY : D-Sheet Piling version 20.1.1.1 "; "nine"; "ten"]).

Definition eight_lines_crlf_open : string :=
  join ((λ l, l +:+ crlf) <$>
        ["one"; "two"; "three"; "four"; "five"; "six"; "seven"])
  +:+ "CREATED BY : D-Sheet Piling version 20.1.1.1".

(** Two files of eight lines that differ in line 8 only, and a text of
    three lines without carriage return. *)
Definition eight_lines_other : string :=
  join ((λ l, l +:+ lf) <$>
        ["one"; "two"; "three"; "four"; "five"; "six"; "seven"])
  +:+ "an eighth line" +:+ lf.

Definition three_lines_text : string :=
  "one" +:+ lf +:+ "two" +:+ lf +:+ "three".

End Patcher.

(** ** The model builder, [dsheet_test.py] *)

Module Builder.

Local Open Scope Q_scope.

(** *** The records and enumerations of geolib that the script uses

    The enumerations list the members the script names; the records list
    the fields the script sets.  Numeric literals are kept as the exact
    rationals they denote: the script does no arithmetic on them. *)

Inductive LateralEarthPressureMethodStage := KA_KO_KP | C_PHI_DELTA.
Inductive PassiveSide := DSHEETPILING_DETERMINED.
Inductive Side := LEFT | RIGHT | BOTH.
Inductive SheetPilingElementMaterialType := Steel.
Inductive GrainType := FINE | COARSE.
Inductive LambdaType := KOTTER.
Inductive CalculationType := VERIFY_SHEETPILING.
Inductive VerifyType := EC7NL.
Inductive PartialFactorCalculationType := METHODA | METHODB.
Inductive PartialFactorSetEC7NADNL := RC1 | RC2.
Inductive LoadTypePermanentVariable := PERMANENT | VARIABLE.
Inductive LoadTypeFavourableUnfavourableMoment := FAVOURABLE | UNFAVOURABLE.

Record SheetModelType := {
  check_vertical_balance : bool;
  method : LateralEarthPressureMethodStage;
  trildens_calculation : bool;
  verification : bool
}.

Record SheetPileProperties := {
  material_type : SheetPilingElementMaterialType;
  section_bottom_level : Q;
  elastic_stiffness_ei : Q;
  acting_width : Q;
  mr_char_el : Q;
  modification_factor_k_mod : Q;
  material_factor_gamma_m : Q;
  reduction_factor_on_maximum_moment : Q;
  reduction_factor_on_ei : Q;
  section_area : Q;
  elastic_section_modulus_w_el : Q;
  coating_area : Q;
  height : Q
}.

Record Sheet := {
  sheet_name : string;
  sheet_pile_properties : SheetPileProperties
}.

Record Soil := {
  soil_name : string;
  unsaturated_weight : Q;
  saturated_weight : Q;
  cohesion : Q;
  friction_angle : Q;
  friction_angle_interface : Q;
  shell_factor : Q;
  ocr_layer : Q;
  grain_type : GrainType;
  lambda_type : LambdaType;
  k_1_top_side : Q;
  k_1_bottom_side : Q;
  k_2_top_side : Q;
  k_2_bottom_side : Q;
  k_3_top_side : Q;
  k_3_bottom_side : Q
}.

(** A layer refers to its soil by name; the pore-pressure values are
    optional keyword arguments. *)
Record SoilLayer := {
  top_of_layer : Q;
  soil : string;
  water_pressure_top : option Q;
  water_pressure_bottom : option Q
}.

Record SoilProfile := {
  profile_name : string;
  layers : list SoilLayer
}.

Record Point := { x : Q; z : Q }.

Record Surface := {
  surface_name : string;
  points : list Point
}.

Record WaterLevel := {
  water_level_name : string;
  level : Q
}.

Record VerifyCalculationOptions := {
  input_calculation_type : CalculationType;
  verify_type : VerifyType;
  ec7_nl_method : PartialFactorCalculationType;
  calc_reduce_deltas : bool
}.

Record CalculationOptionsPerStage := {
  partial_factor_set : PartialFactorSetEC7NADNL
}.

Record Strut := {
  strut_name : string;
  strut_level : Q;
  strut_side : Side;
  strut_e_modulus : Q;
  strut_cross_section : Q;
  strut_length : Q;
  strut_angle : Q;
  buckling_force : Q;
  pre_compression : Q
}.

(** The script imports [Anchor] and builds none; the fields are those of
    the call it keeps as a comment. *)
Record Anchor := {
  anchor_name : string;
  anchor_level : Q;
  anchor_side : Side;
  anchor_e_modulus : Q;
  anchor_cross_section : Q;
  wall_height_kranz : Q;
  anchor_length : Q;
  anchor_angle : Q;
  yield_force : Q
}.

(** [add_anchor_or_strut] takes either. *)
Inductive Support :=
| SupportStrut (s : Strut)
| SupportAnchor (a : Anchor).

Record VerificationLoadSettings := {
  duration_type : LoadTypePermanentVariable;
  load_type : LoadTypeFavourableUnfavourableMoment
}.

Record UniformLoad := {
  load_name : string;
  left_load : Q;
  right_load : Q;
  verification_load_settings : VerificationLoadSettings
}.

(** *** The calls the script issues on the model *)

Definition stage_id := nat.

Inductive call :=
| SetModel (modeltype : SheetModelType)
| SetConstruction (top_level : Q) (elements : list Sheet)
| AddStage (name : string) (passive_side : PassiveSide)
           (method_left method_right : LateralEarthPressureMethodStage)
| AddSoil (soil : Soil)
| AddProfile (profile : SoilProfile) (side : Side) (stage : stage_id)
| AddSurface (surface : Surface) (side : Side) (stage : stage_id)
| AddHeadLine (water_level : WaterLevel) (side : Side) (stage : stage_id)
| SetCalculationOptions (calculation_options : VerifyCalculationOptions)
| AddCalculationOptionsPerStage
    (calculation_options_per_stage : CalculationOptionsPerStage)
    (stage : stage_id)
| AddAnchorOrStrut (support : Support) (stage : stage_id)
| AddLoad (load : UniformLoad) (stage : stage_id)
| Serialize (path : string)
| Execute
| PrintOutput.

(** The model is the sequence of calls it has received, oldest first. *)
Definition model := list call.

(** A script step reads and extends the model and returns a value. *)
Definition M (A : Type) : Type := model → A * model.

#[local] Instance M_ret : MRet M := λ A a m, (a, m).
#[local] Instance M_bind : MBind M :=
  λ A B k step m, let '(a, m') := step m in k a m'.

Definition issue (c : call) : M unit := λ m, (tt, (m ++ [c])%list).

Definition is_AddStage (c : call) : bool :=
  match c with
  | AddStage _ _ _ _ => true
  | _ => false
  end.

(** [model.add_stage] returns the identifier of the new stage.  Stages are
    numbered from 0 in the order in which they are added; the script only
    passes the identifiers back to the model, and [stage_name] below
    resolves them to the names given here. *)
Definition add_stage (name : string) (passive_side : PassiveSide)
    (method_left method_right : LateralEarthPressureMethodStage) : M stage_id :=
  λ m, (length (filter is_AddStage m),
        (m ++ [AddStage name passive_side method_left method_right])%list).

(** [for x in xs: body]. *)
Fixpoint for_in {A} (xs : list A) (body : A → M unit) : M unit :=
  match xs with
  | [] => mret tt
  | x :: xs' => body x;; for_in xs' body
  end.

(** *** The objects the script constructs *)

Definition modeltype : SheetModelType :=
  {| check_vertical_balance := false; method := KA_KO_KP;
     trildens_calculation := false; verification := true |}.

Definition sheet_pile_properties_AZ18_700_S355 : SheetPileProperties :=
  {| material_type := Steel;
     section_bottom_level := -20;
     elastic_stiffness_ei := 7.938e4;
     acting_width := 1;
     mr_char_el := 639;
     modification_factor_k_mod := 1;
     material_factor_gamma_m := 1;
     reduction_factor_on_maximum_moment := 1;
     reduction_factor_on_ei := 1;
     section_area := 139;
     elastic_section_modulus_w_el := 1800;
     coating_area := 1.33;
     height := 420.0 |}.

Definition sheet_pile_properties_AZ20_700_S355 : SheetPileProperties :=
  {| material_type := Steel;
     section_bottom_level := -20;
     elastic_stiffness_ei := 8.6016e4;
     acting_width := 1;
     mr_char_el := 690;
     modification_factor_k_mod := 1;
     material_factor_gamma_m := 1;
     reduction_factor_on_maximum_moment := 1;
     reduction_factor_on_ei := 1;
     section_area := 152;
     elastic_section_modulus_w_el := 1945;
     coating_area := 1.33;
     height := 421.0 |}.

Definition sheet_pile_properties_AZ26_700_S355 : SheetPileProperties :=
  {| material_type := Steel;
     section_bottom_level := -20;
     elastic_stiffness_ei := 1.254120e5;
     acting_width := 1;
     mr_char_el := 923;
     modification_factor_k_mod := 1;
     material_factor_gamma_m := 1;
     reduction_factor_on_maximum_moment := 1;
     reduction_factor_on_ei := 1;
     section_area := 187;
     elastic_section_modulus_w_el := 2600;
     coating_area := 1.38;
     height := 460.0 |}.

Definition sheet_element : Sheet :=
  {| sheet_name := "AZ 20-700 S355";
     sheet_pile_properties := sheet_pile_properties_AZ20_700_S355 |}.

Definition level_top : Q := 0.

Definition soil_clay : Soil :=
  {| soil_name := "Clay";
     unsaturated_weight := 10; saturated_weight := 11;
     cohesion := 10; friction_angle := 17; friction_angle_interface := 11;
     shell_factor := 1; ocr_layer := 1;
     grain_type := FINE; lambda_type := KOTTER;
     k_1_top_side := 4000; k_1_bottom_side := 4000;
     k_2_top_side := 2000; k_2_bottom_side := 2000;
     k_3_top_side := 800; k_3_bottom_side := 800 |}.

Definition soil_peat : Soil :=
  {| soil_name := "Peat";
     unsaturated_weight := 10; saturated_weight := 11;
     cohesion := 2; friction_angle := 20; friction_angle_interface := 0;
     shell_factor := 1; ocr_layer := 1;
     grain_type := FINE; lambda_type := KOTTER;
     k_1_top_side := 2000; k_1_bottom_side := 2000;
     k_2_top_side := 800; k_2_bottom_side := 800;
     k_3_top_side := 500; k_3_bottom_side := 500 |}.

Definition soil_sand_moderate : Soil :=
  {| soil_name := "Sand moderate";
     unsaturated_weight := 17; saturated_weight := 19;
     cohesion := 0; friction_angle := 32.5; friction_angle_interface := 21.7;
     shell_factor := 1; ocr_layer := 1;
     grain_type := COARSE; lambda_type := KOTTER;
     k_1_top_side := 20000; k_1_bottom_side := 20000;
     k_2_top_side := 10000; k_2_bottom_side := 10000;
     k_3_top_side := 5000; k_3_bottom_side := 5000 |}.

Definition soil_sand_dense : Soil :=
  {| soil_name := "Sand dense";
     unsaturated_weight := 19; saturated_weight := 21;
     cohesion := 0; friction_angle := 35; friction_angle_interface := 23.3;
     shell_factor := 1; ocr_layer := 1;
     grain_type := COARSE; lambda_type := KOTTER;
     k_1_top_side := 40000; k_1_bottom_side := 40000;
     k_2_top_side := 20000; k_2_bottom_side := 20000;
     k_3_top_side := 10000; k_3_bottom_side := 10000 |}.

(** [SoilLayer(top_of_layer=.., soil=.., water_pressure_top=..,
    water_pressure_bottom=..)], the last two optional. *)
Definition layer (top : Q) (soil_name : string)
    (wp_top wp_bottom : option Q) : SoilLayer :=
  {| top_of_layer := top; soil := soil_name;
     water_pressure_top := wp_top; water_pressure_bottom := wp_bottom |}.

Definition profile_initial : SoilProfile :=
  {| profile_name := "Profile initial";
     layers :=
       [ layer 0 (soil_name soil_clay) None None;
         layer (-3) (soil_name soil_peat) None None;
         layer (-4) (soil_name soil_sand_moderate) None None;
         layer (-8) (soil_name soil_clay) None None;
         layer (-13) (soil_name soil_sand_moderate) None None;
         layer (-18) (soil_name soil_sand_dense) None None ] |}.

Definition profile_first_excavation : SoilProfile :=
  {| profile_name := "Profile first excavation";
     layers :=
       [ layer 0 (soil_name soil_clay) None None;
         layer (-3) (soil_name soil_peat) None None;
         layer (-4) (soil_name soil_sand_moderate) None None;
         layer (-8) (soil_name soil_clay) None (Some 15);
         layer (-13) (soil_name soil_sand_moderate) (Some 15) (Some 15);
         layer (-18) (soil_name soil_sand_dense) (Some 15) (Some 15) ] |}.

Definition profile_pit_dry : SoilProfile :=
  {| profile_name := "Profile pit dry";
     layers :=
       [ layer 0 (soil_name soil_clay) None None;
         layer (-3) (soil_name soil_peat) None None;
         layer (-4) (soil_name soil_sand_moderate) None None;
         layer (-8) (soil_name soil_clay) None (Some 70);
         layer (-13) (soil_name soil_sand_moderate) (Some 70) (Some 70);
         layer (-18) (soil_name soil_sand_dense) (Some 70) (Some 70) ] |}.

Definition surface_ground_level : Surface :=
  {| surface_name := "Initial surface level"; points := [ {| x := 0; z := 0 |} ] |}.
Definition surface_first_excavation : Surface :=
  {| surface_name := "Excavated NAP-2 m"; points := [ {| x := 0; z := -2 |} ] |}.
Definition surface_full_excavation : Surface :=
  {| surface_name := "Excavated NAP-8 m"; points := [ {| x := 0; z := -8 |} ] |}.

Definition water_level_initial : WaterLevel :=
  {| water_level_name := "Water level NAP-1.0 m"; level := -1.0 |}.
Definition water_level_min2_5 : WaterLevel :=
  {| water_level_name := "Water level NAP-2.5 m"; level := -2.5 |}.
Definition water_level_min_8 : WaterLevel :=
  {| water_level_name := "Water level NAP-8.0 m"; level := -8.0 |}.

Definition calc_options : VerifyCalculationOptions :=
  {| input_calculation_type := VERIFY_SHEETPILING;
     verify_type := EC7NL;
     ec7_nl_method := METHODB;
     calc_reduce_deltas := true |}.

Definition calc_options_per_stage : CalculationOptionsPerStage :=
  {| partial_factor_set := RC2 |}.

Definition strut1 : Strut :=
  {| strut_name := "Strut";
     strut_level := -1.5;
     strut_side := LEFT;
     strut_e_modulus := 2.1e8;
     strut_cross_section := 4.0e-3;
     strut_length := 10;
     strut_angle := 0.001;
     buckling_force := 10000;
     pre_compression := 10 |}.

Definition uniform_load_20kPa : UniformLoad :=
  {| load_name := "Surface load 20 kPa"; left_load := 0; right_load := 20;
     verification_load_settings :=
       {| duration_type := VARIABLE; load_type := UNFAVOURABLE |} |}.

Definition uniform_load_pit_dry : UniformLoad :=
  {| load_name := "Surface load 70 kPa"; left_load := 70; right_load := 0;
     verification_load_settings :=
       {| duration_type := PERMANENT; load_type := FAVOURABLE |} |}.

Definition dsheet_file : string := "dsheet_test.shi".

(** *** The script *)

Definition calculate_sheet_pile : M unit :=
  issue (SetModel modeltype);;
  issue (SetConstruction level_top [sheet_element]);;
  stage_initial ←
    add_stage "Initial stage" DSHEETPILING_DETERMINED KA_KO_KP KA_KO_KP;
  stage_first_excavation ←
    add_stage "First excavation" DSHEETPILING_DETERMINED KA_KO_KP KA_KO_KP;
  stage_strut ←
    add_stage "Place struts" DSHEETPILING_DETERMINED KA_KO_KP KA_KO_KP;
  stage_wet_excavation ←
    add_stage "Wet excavation" DSHEETPILING_DETERMINED KA_KO_KP KA_KO_KP;
  stage_pit_dry ←
    add_stage "Pit dry" DSHEETPILING_DETERMINED KA_KO_KP KA_KO_KP;
  for_in [soil_clay; soil_peat; soil_sand_moderate; soil_sand_dense]
    (λ soil, issue (AddSoil soil));;
  for_in [stage_initial; stage_first_excavation; stage_strut;
          stage_wet_excavation; stage_pit_dry]
    (λ stage, issue (AddProfile profile_initial BOTH stage));;
  for_in [stage_first_excavation; stage_strut]
    (λ stage, issue (AddProfile profile_first_excavation LEFT stage));;
  for_in [stage_pit_dry]
    (λ stage, issue (AddProfile profile_pit_dry LEFT stage));;
  for_in [stage_initial; stage_first_excavation; stage_strut;
          stage_wet_excavation; stage_pit_dry]
    (λ stage, issue (AddSurface surface_ground_level RIGHT stage));;
  for_in [stage_first_excavation; stage_strut]
    (λ stage, issue (AddSurface surface_first_excavation LEFT stage));;
  for_in [stage_wet_excavation; stage_pit_dry]
    (λ stage, issue (AddSurface surface_full_excavation LEFT stage));;
  for_in [stage_initial; stage_first_excavation; stage_strut;
          stage_wet_excavation; stage_pit_dry]
    (λ stage, issue (AddHeadLine water_level_initial BOTH stage));;
  for_in [stage_first_excavation; stage_strut]
    (λ stage, issue (AddHeadLine water_level_min2_5 LEFT stage));;
  for_in [stage_pit_dry]
    (λ stage, issue (AddHeadLine water_level_min_8 LEFT stage));;
  issue (SetCalculationOptions calc_options);;
  for_in [stage_first_excavation; stage_strut; stage_wet_excavation;
          stage_pit_dry]
    (λ stage,
       issue (AddCalculationOptionsPerStage calc_options_per_stage stage));;
  for_in [stage_strut; stage_wet_excavation; stage_pit_dry]
    (λ stage, issue (AddAnchorOrStrut (SupportStrut strut1) stage));;
  for_in [stage_first_excavation; stage_strut; stage_wet_excavation;
          stage_pit_dry]
    (λ stage, issue (AddLoad uniform_load_20kPa stage));;
  for_in [stage_pit_dry]
    (λ stage, issue (AddLoad uniform_load_pit_dry stage));;
  issue (Serialize dsheet_file);;
  issue Execute;;
  issue PrintOutput.

(** The calls of one run, on the fresh model [DSheetPilingModel()]. *)
Definition trace : list call := (calculate_sheet_pile []).2.

(** *** Reading a model *)

Definition is_AddSoil (c : call) : bool :=
  match c with
  | AddSoil _ => true
  | _ => false
  end.

Definition is_AddProfile (c : call) : bool :=
  match c with
  | AddProfile _ _ _ => true
  | _ => false
  end.

(** The stages of a model in the order of their identifiers: name, method
    on the left, method on the right. *)
Definition stages (m : model) :
    list (string * LateralEarthPressureMethodStage *
          LateralEarthPressureMethodStage) :=
  omap (λ c, match c with
             | AddStage name _ method_left method_right =>
                 Some (name, method_left, method_right)
             | _ => None
             end) m.

Definition stage_name (m : model) (id : stage_id) : option string :=
  (λ s, s.1.1) <$> stages m !! id.

(** The [add_load] calls, in order, with the name of the stage each one
    names ([None] for an identifier that is no stage of the model). *)
Definition load_calls (m : model) : list (UniformLoad * option string) :=
  omap (λ c, match c with
             | AddLoad load id => Some (load, stage_name m id)
             | _ => None
             end) m.

Definition loads_at (m : model) (name : string) : list UniformLoad :=
  omap (λ r : UniformLoad * option string,
          if bool_decide (r.2 = Some name) then Some r.1 else None)
       (load_calls m).

(** The [add_anchor_or_strut] calls, likewise. *)
Definition support_calls (m : model) : list (Support * option string) :=
  omap (λ c, match c with
             | AddAnchorOrStrut support id => Some (support, stage_name m id)
             | _ => None
             end) m.

Definition supports_at (m : model) (name : string) : list Support :=
  omap (λ r : Support * option string,
          if bool_decide (r.2 = Some name) then Some r.1 else None)
       (support_calls m).

(** The names of the soils registered with a model. *)
Definition registered_soils (m : model) : list string :=
  omap (λ c, match c with
             | AddSoil soil => Some (soil_name soil)
             | _ => None
             end) m.

(** The profiles passed to [add_profile], in order. *)
Definition profile_calls (m : model) : list SoilProfile :=
  omap (λ c, match c with
             | AddProfile profile _ _ => Some profile
             | _ => None
             end) m.

(** Every layer lies strictly below the layer before it. *)
Definition decreasing_tops (p : SoilProfile) : Prop :=
  ∀ i upper lower,
    layers p !! i = Some upper → layers p !! S i = Some lower →
    top_of_layer lower < top_of_layer upper.

(** Scanning the calls in order with the soil names seen so far: every
    profile added names only soils seen before it. *)
Fixpoint soils_known (seen : list string) (m : model) : bool :=
  match m with
  | [] => true
  | AddSoil soil :: m' => soils_known (soil_name soil :: seen) m'
  | AddProfile profile _ _ :: m' =>
      forallb (λ l, bool_decide (soil l ∈ seen)) (layers profile)
      && soils_known seen m'
  | _ :: m' => soils_known seen m'
  end.

(** *** Further readings of a model *)

(** The [add_profile], [add_head_line] and [add_surface] calls, in order:
    the name of the object, the side and the name of the stage. *)
Definition profile_attachments (m : model) :
    list (string * Side * option string) :=
  omap (λ c, match c with
             | AddProfile profile side id =>
                 Some (profile_name profile, side, stage_name m id)
             | _ => None
             end) m.

Definition head_line_attachments (m : model) :
    list (string * Side * option string) :=
  omap (λ c, match c with
             | AddHeadLine water_level side id =>
                 Some (water_level_name water_level, side, stage_name m id)
             | _ => None
             end) m.

Definition surface_attachments (m : model) :
    list (string * Side * option string) :=
  omap (λ c, match c with
             | AddSurface surface side id =>
                 Some (surface_name surface, side, stage_name m id)
             | _ => None
             end) m.

(** Where an attachment goes: side and stage. *)
Definition place (a : string * Side * option string) : Side * option string :=
  (a.1.2, a.2).

(** The [add_calculation_options_per_stage] calls, in order. *)
Definition options_per_stage_calls (m : model) :
    list (CalculationOptionsPerStage * option string) :=
  omap (λ c, match c with
             | AddCalculationOptionsPerStage options id =>
                 Some (options, stage_name m id)
             | _ => None
             end) m.

Definition is_SetCalculationOptions (c : call) : bool :=
  match c with
  | SetCalculationOptions _ => true
  | _ => false
  end.

Definition is_AddCalculationOptionsPerStage (c : call) : bool :=
  match c with
  | AddCalculationOptionsPerStage _ _ => true
  | _ => false
  end.

(** The calls that write, run and read back the model, as opposed to those
    that build it. *)
Definition is_final (c : call) : bool :=
  match c with
  | Serialize _ | Execute | PrintOutput => true
  | _ => false
  end.

(** A profile without its pore-pressure values: tops and soils. *)
Definition strata (p : SoilProfile) : list (Q * string) :=
  (λ l, (top_of_layer l, soil l)) <$> layers p.

(** The pore-pressure values of a profile, layer by layer. *)
Definition pressures (p : SoilProfile) : list (option Q * option Q) :=
  (λ l, (water_pressure_top l, water_pressure_bottom l)) <$> layers p.

(** The calls that configure the model as a whole. *)
Definition is_configuration (c : call) : bool :=
  match c with
  | SetModel _ | SetConstruction _ _ => true
  | _ => false
  end.

End Builder.

(** * Proofs *)

(** ** Facts on strings *)

Module StrFacts.
Import Str.

Lemma app_nil_l (s : string) : "" +:+ s = s.
Proof. reflexivity. Qed.

Lemma app_cons c (s t : string) : String c s +:+ t = String c (s +:+ t).
Proof. reflexivity. Qed.

Lemma app_nil_r (s : string) : s +:+ "" = s.
Proof.
  induction s as [|c s IH]; [done |].
  by rewrite app_cons, IH.
Qed.

Lemma app_assoc (s t u : string) : (s +:+ t) +:+ u = s +:+ (t +:+ u).
Proof.
  induction s as [|c s IH]; [done |].
  by rewrite !app_cons, IH.
Qed.

Lemma has_char_app c s t :
  has_char c (s +:+ t) = has_char c s || has_char c t.
Proof.
  induction s as [|d s IH]; [done |].
  rewrite app_cons. cbn. by destruct (Ascii.eqb d c).
Qed.

Lemma last_char_app_cons s c t :
  last_char (s +:+ String c t) = last_char (String c t).
Proof.
  induction s as [|d s IH]; [done |].
  rewrite app_cons.
  destruct s as [|e s]; [done |].
  rewrite app_cons in *. exact IH.
Qed.

Lemma join_cons (x : string) (xs : list string) : join (x :: xs) = x +:+ join xs.
Proof. reflexivity. Qed.

Lemma join_app (xs ys : list string) : join (xs ++ ys) = join xs +:+ join ys.
Proof.
  induction xs as [|x xs IH]; [done |].
  rewrite <- app_comm_cons.
  by rewrite !join_cons, IH, app_assoc.
Qed.

End StrFacts.

(** ** The output patcher *)

Module PatcherFacts.
Import Str StrFacts Patcher.

(** *** The write loop *)

Lemma writelines_chars (s written : string) :
  writelines written (chars s) = written +:+ s.
Proof.
  revert written. induction s as [|c s IH]; intros written.
  - by rewrite app_nil_r.
  - cbn. unfold writelines in IH. rewrite IH.
    by rewrite app_assoc.
Qed.

Lemma loop_body_app (written : string) (i : nat) (line : string) :
  loop_body written (i, line) =
  written +:+ (if Nat.eqb i 8 then version_line else line).
Proof.
  unfold loop_body. destruct (Nat.eqb i 8); apply writelines_chars.
Qed.

Lemma foldl_loop_body (get_all : list string) (start : nat) (written : string) :
  foldl loop_body written (enumerate start get_all) =
  written +:+ join (written_items start get_all).
Proof.
  revert start written.
  induction get_all as [|line ls IH]; intros start written.
  - by rewrite app_nil_r.
  - cbn [enumerate foldl]. rewrite IH, loop_body_app.
    unfold written_items. cbn [enumerate fmap list_fmap fst snd].
    by rewrite join_cons, app_assoc.
Qed.

(** From a start above 8 the test never succeeds; from a start [k <= 8] it
    succeeds exactly at position [8 - k]. *)
Lemma written_items_above (get_all : list string) (start : nat) :
  8 < start → written_items start get_all = get_all.
Proof.
  revert start. induction get_all as [|line ls IH]; intros start Hs; [done |].
  unfold written_items in *. cbn [enumerate fmap list_fmap fst snd].
  rewrite IH by lia.
  by destruct (Nat.eqb_spec start 8); [lia |].
Qed.

Lemma written_items_upto (get_all : list string) (start : nat) :
  start ≤ 8 →
  written_items start get_all = <[8 - start := version_line]> get_all.
Proof.
  revert start. induction get_all as [|line ls IH]; intros start Hs; [done |].
  unfold written_items. cbn [enumerate fmap list_fmap fst snd].
  destruct (Nat.eqb_spec start 8) as [->|Hne].
  - cbn. f_equal. apply written_items_above. lia.
  - replace (8 - start) with (S (8 - S start)) by lia. cbn [insert list_insert].
    f_equal. apply IH. lia.
Qed.

Lemma rewrite_lines_insert (get_all : list string) :
  rewrite_lines get_all = join (<[7 := version_line]> get_all).
Proof.
  unfold rewrite_lines. rewrite foldl_loop_body, app_nil_l.
  by rewrite written_items_upto by lia.
Qed.

(** *** [readlines] *)

Lemma join_readlines (text : string) : join (readlines text) = text.
Proof.
  induction text as [|c rest IH]; [done |].
  cbn [readlines]. destruct (Ascii.eqb c LF).
  - by rewrite join_cons, IH.
  - destruct (readlines rest) as [|l ls].
    + cbn in IH. by subst rest.
    + rewrite join_cons in *. by rewrite app_cons, IH.
Qed.

Lemma readlines_unterminated (l : string) :
  unterminated l → readlines l = [l].
Proof.
  intros [Hne Hlf]. induction l as [|c rest IH]; [done |].
  cbn in Hlf. cbn [readlines]. destruct (Ascii.eqb c LF); [done |].
  destruct rest as [|d rest]; [done |].
  by rewrite IH.
Qed.

Lemma readlines_terminated (body rest : string) :
  has_char LF body = false →
  readlines (body +:+ String LF rest) = (body +:+ String LF "") :: readlines rest.
Proof.
  induction body as [|c body IH]; intros Hlf.
  - by rewrite !app_nil_l.
  - cbn in Hlf. rewrite !app_cons. cbn [readlines].
    destruct (Ascii.eqb c LF); [done |].
    by rewrite IH.
Qed.

Lemma readlines_join (ls : list string) :
  wf_lines ls → readlines (join ls) = ls.
Proof.
  induction 1 as [|l Hl|l ls [body [-> Hbody]] _ IH].
  - done.
  - rewrite join_cons. cbn [join foldr]. rewrite app_nil_r.
    by apply readlines_unterminated.
  - rewrite join_cons, app_assoc, app_cons, app_nil_l.
    by rewrite readlines_terminated, IH.
Qed.

Lemma wf_lines_readlines (text : string) : wf_lines (readlines text).
Proof.
  induction text as [|c rest IH]; [constructor |].
  cbn [readlines]. destruct (Ascii.eqb_spec c LF) as [->|Hc].
  - apply wf_lines_cons; [| done]. by exists "".
  - assert (Hc' : Ascii.eqb c LF = false) by by apply Ascii.eqb_neq.
    destruct IH as [|l [Hne Hlf]|l ls [body [-> Hbody]] Hls].
    + apply wf_lines_last. split; [done |]. cbn. by rewrite Hc'.
    + apply wf_lines_last. split; [done |]. cbn. by rewrite Hc'.
    + apply wf_lines_cons; [| done].
      exists (String c body). split; [done |]. cbn. by rewrite Hc'.
Qed.

Lemma terminated_version_line : terminated version_line.
Proof. eexists. split; [reflexivity | reflexivity]. Qed.

Lemma wf_lines_insert (ls : list string) (i : nat) (l : string) :
  terminated l → wf_lines ls → wf_lines (<[i := l]> ls).
Proof.
  intros Hl Hls. revert i.
  induction Hls as [|l0 Hl0|l0 ls Hl0 Hls IH]; intros i.
  - constructor.
  - destruct i as [|i]; cbn.
    + apply wf_lines_cons; [done | constructor].
    + by apply wf_lines_last.
  - destruct i as [|i]; cbn.
    + by apply wf_lines_cons.
    + apply wf_lines_cons; [done | apply IH].
Qed.

(** *** Newline translation *)

(** What [universal_newlines] delivers holds no carriage return. *)
Lemma universal_newlines_no_CR (disk : string) :
  has_char CR (universal_newlines disk) = false.
Proof.
  enough (H : has_char CR (universal_newlines disk) = false ∧
              ∀ c, has_char CR (universal_newlines (String c disk)) = false)
    by apply H.
  induction disk as [|d rest [IH1 IH2]].
  - split; [done |]. intros c. cbn.
    destruct (Ascii.eqb_spec c CR) as [->|Hc]; [done |].
    cbn. by apply Ascii.eqb_neq in Hc as ->.
  - split; [apply IH2 |]. intros c.
    cbn [universal_newlines]. fold (universal_newlines (String d rest)).
    destruct (Ascii.eqb_spec c CR) as [->|Hc].
    + destruct (Ascii.eqb d LF); cbn [has_char]; cbn; [apply IH1 | apply IH2].
    + cbn [has_char]. apply Ascii.eqb_neq in Hc as ->. apply IH2.
Qed.

(** Reading back what was written in text mode gives the text written, on
    either platform, as long as the text holds no carriage return. *)
Lemma universal_translate (os : platform) (text : string) :
  has_char CR text = false →
  universal_newlines (translate_newlines os text) = text.
Proof.
  induction text as [|c rest IH]; intros Hcr; [done |].
  cbn in Hcr. destruct (Ascii.eqb_spec c CR) as [->|Hc]; [done |].
  specialize (IH Hcr). cbn [translate_newlines].
  destruct (Ascii.eqb_spec c LF) as [->|Hlf].
  - destruct os; cbn [linesep]; rewrite ?app_cons, app_nil_l.
    + cbn [universal_newlines].
      change (Ascii.eqb LF CR) with false. cbv iota. by rewrite IH.
    + cbn [universal_newlines].
      change (Ascii.eqb CR CR) with true. change (Ascii.eqb LF LF) with true.
      cbv iota. by rewrite IH.
  - cbn [universal_newlines]. apply Ascii.eqb_neq in Hc as ->. by rewrite IH.
Qed.

(** On POSIX nothing is translated on writing. *)
Lemma translate_newlines_posix (text : string) :
  translate_newlines Posix text = text.
Proof.
  induction text as [|c rest IH]; [done |].
  cbn [translate_newlines]. destruct (Ascii.eqb_spec c LF) as [->|Hlf].
  - cbn [linesep]. by rewrite app_cons, app_nil_l, IH.
  - by rewrite IH.
Qed.

Lemma translate_newlines_app (os : platform) (s t : string) :
  translate_newlines os (s +:+ t) =
  translate_newlines os s +:+ translate_newlines os t.
Proof.
  induction s as [|c s IH]; [done |].
  rewrite app_cons. cbn [translate_newlines].
  destruct (Ascii.eqb c LF); by rewrite IH, ?app_assoc, ?app_cons.
Qed.

Lemma has_char_join (c : ascii) (ls : list string) :
  has_char c (join ls) = false ↔ Forall (λ l, has_char c l = false) ls.
Proof.
  induction ls as [|l ls IH]; [by split; [constructor |] |].
  rewrite join_cons, has_char_app, orb_false_iff, Forall_cons. by rewrite IH.
Qed.

(** The text the loop writes holds no carriage return when the lines read
    hold none. *)
Lemma rewrite_lines_no_CR (text : string) :
  has_char CR text = false →
  has_char CR (rewrite_lines (readlines text)) = false.
Proof.
  intros Hcr. rewrite rewrite_lines_insert. apply has_char_join.
  apply Forall_insert; [| done].
  apply has_char_join. by rewrite join_readlines.
Qed.

(** *** The script as a whole *)

(** The text of the rewritten file, as a reader in text mode sees it. *)
Lemma universal_newlines_patcher (os : platform) (disk : string) :
  universal_newlines (patcher os disk) =
  join (<[7 := version_line]> (file_lines disk)).
Proof.
  unfold patcher, file_lines.
  rewrite universal_translate.
  - apply rewrite_lines_insert.
  - apply rewrite_lines_no_CR, universal_newlines_no_CR.
Qed.

(** The lines of the rewritten file are the lines read, with the version
    line at index 7 when there is such an index. *)
Lemma file_lines_patcher (os : platform) (disk : string) :
  file_lines (patcher os disk) = <[7 := version_line]> (file_lines disk).
Proof.
  unfold file_lines at 1. rewrite universal_newlines_patcher.
  apply readlines_join, wf_lines_insert; [apply terminated_version_line |].
  apply wf_lines_readlines.
Qed.

(** *** Line 8 is replaced, the other lines are kept *)

Lemma length_file_lines_patcher (os : platform) (disk : string) :
  length (file_lines (patcher os disk)) = length (file_lines disk).
Proof. by rewrite file_lines_patcher, length_insert. Qed.

Lemma line_8_patcher (os : platform) (disk : string) :
  8 ≤ length (file_lines disk) →
  line 8 (patcher os disk) = Some version_line.
Proof.
  intros Hlen. unfold line. rewrite file_lines_patcher.
  apply list_lookup_insert_eq. lia.
Qed.

Lemma line_other_patcher (os : platform) (disk : string) (k : nat) :
  k ≠ 8 → line k (patcher os disk) = line k disk.
Proof.
  intros Hk. destruct k as [|i]; [done |]. unfold line.
  rewrite file_lines_patcher. apply list_lookup_insert_ne. lia.
Qed.

Lemma line_is_Some (disk : string) (k : nat) :
  1 ≤ k ≤ length (file_lines disk) → is_Some (line k disk).
Proof.
  intros Hk. destruct k as [|i]; [lia |]. apply lookup_lt_is_Some. lia.
Qed.

(** *** The lines on disk *)

(** Cutting after every ["\n"] commutes with storing every ["\n"] as the
    platform's line separator. *)
Lemma readlines_translate (os : platform) (text : string) :
  readlines (translate_newlines os text) =
  translate_newlines os <$> readlines text.
Proof.
  induction text as [|c rest IH]; [done |].
  cbn [translate_newlines readlines].
  destruct (Ascii.eqb_spec c LF) as [->|Hc].
  - destruct os; cbn [linesep]; rewrite ?app_cons, app_nil_l;
      cbn [readlines];
      change (Ascii.eqb LF LF) with true;
      change (Ascii.eqb CR LF) with false; cbv iota;
      rewrite IH; reflexivity.
  - cbn [readlines].
    assert (Hc' : Ascii.eqb c LF = false) by by apply Ascii.eqb_neq.
    rewrite Hc', IH.
    destruct (readlines rest) as [|l ls]; cbn [fmap list_fmap translate_newlines];
      by rewrite Hc'.
Qed.

Lemma translate_version_line_linesep (os : platform) :
  translate_newlines os version_line =
  "CREATED BY : D-Sheet Piling version 19.3.1.27104 " +:+ linesep os.
Proof. by destruct os. Qed.

(** On disk the rewritten file holds the lines read, the version line at
    index 7 when there is such an index, each with its ending stored as the
    platform's line separator. *)
Lemma disk_lines_patcher (os : platform) (disk : string) :
  disk_lines (patcher os disk) =
  translate_newlines os <$> <[7 := version_line]> (file_lines disk).
Proof.
  unfold disk_lines, patcher. cbv zeta.
  rewrite readlines_translate, rewrite_lines_insert. f_equal.
  apply readlines_join, wf_lines_insert; [apply terminated_version_line |].
  apply wf_lines_readlines.
Qed.

Lemma disk_lines_native (os : platform) (disk : string) :
  native_newlines os disk →
  disk_lines disk = translate_newlines os <$> file_lines disk.
Proof.
  intros Hnative. unfold disk_lines, file_lines.
  rewrite <- readlines_translate. by rewrite Hnative.
Qed.

Lemma disk_line_8_patcher (os : platform) (disk : string) :
  8 ≤ length (file_lines disk) →
  disk_line 8 (patcher os disk) =
  Some ("CREATED BY : D-Sheet Piling version 19.3.1.27104 " +:+ linesep os).
Proof.
  intros Hlen. unfold disk_line.
  rewrite disk_lines_patcher, list_lookup_fmap.
  rewrite list_lookup_insert_eq by lia.
  cbn [fmap option_fmap option_map]. by rewrite translate_version_line_linesep.
Qed.

Lemma disk_line_other_patcher (os : platform) (disk : string) (k : nat) :
  k ≠ 8 →
  disk_line k (patcher os disk) = translate_newlines os <$> line k disk.
Proof.
  intros Hk. destruct k as [|i]; [done |]. unfold disk_line, line.
  rewrite disk_lines_patcher, list_lookup_fmap.
  by rewrite list_lookup_insert_ne by lia.
Qed.

Lemma disk_line_native (os : platform) (disk : string) (k : nat) :
  native_newlines os disk →
  disk_line k disk = translate_newlines os <$> line k disk.
Proof.
  intros Hnative. destruct k as [|i]; [done |]. unfold disk_line, line.
  by rewrite (disk_lines_native os), list_lookup_fmap.
Qed.

(** C1, as stated, fails on the bytes of the lines.  A ten-line file with
    ["\r\n"] line endings rewritten on POSIX has ten lines, but its line 1
    on disk is ["one\n"] where the input has ["one\r\n"]; a ten-line file
    with ["\n"] line endings rewritten on Windows has as line 8 on disk the
    version text followed by ["\r\n"], not the literal. *)
Lemma lines_not_byte_identical :
  (length (file_lines ten_lines_crlf) = 10 ∧
   disk_line 1 ten_lines_crlf = Some ("one" +:+ crlf) ∧
   disk_line 1 (patcher Posix ten_lines_crlf) = Some ("one" +:+ lf) ∧
   disk_line 1 (patcher Posix ten_lines_crlf) ≠ disk_line 1 ten_lines_crlf) ∧
  (length (file_lines ten_lines_lf) = 10 ∧
   disk_line 8 (patcher Windows ten_lines_lf) =
     Some ("CREATED BY : D-Sheet Piling version 19.3.1.27104 " +:+ crlf) ∧
   disk_line 8 (patcher Windows ten_lines_lf) ≠ Some version_line).
Proof.
  split.
  - split; [vm_compute; reflexivity |].
    split; [vm_compute; reflexivity |].
    split; [vm_compute; reflexivity | vm_compute; discriminate].
  - split; [vm_compute; reflexivity |].
    split; [vm_compute; reflexivity | vm_compute; discriminate].
Qed.

(** C1, amended. For every input file of [N >= 8] lines, lines being what
    [readlines] returns in text mode, the rewritten file has exactly [N]
    lines; read in text mode its line 8 (counted from 1) is the fixed
    version line ["CREATED BY : D-Sheet Piling version 19.3.1.27104 \n"]
    and its lines 1..7 and 9..N are the corresponding lines of the input.
    On disk it has [N] lines too: line 8 is the version text followed by the
    platform's line separator (the literal itself on POSIX), and each other
    line is the line read with its ending stored as the platform's line
    separator, which is the input's line byte for byte when the input's line
    endings were the platform's. *)
Theorem patcher_replaces_line_8 (os : platform) (disk : string) (N : nat) :
  length (file_lines disk) = N →
  8 ≤ N →
  (length (file_lines (patcher os disk)) = N ∧
   line 8 (patcher os disk) = Some version_line ∧
   ∀ k, 1 ≤ k ≤ N → k ≠ 8 →
        line k (patcher os disk) = line k disk ∧ is_Some (line k disk)) ∧
  (length (disk_lines (patcher os disk)) = N ∧
   disk_line 8 (patcher os disk) =
     Some ("CREATED BY : D-Sheet Piling version 19.3.1.27104 "
           +:+ linesep os) ∧
   (os = Posix → disk_line 8 (patcher os disk) = Some version_line) ∧
   ∀ k, 1 ≤ k ≤ N → k ≠ 8 →
        disk_line k (patcher os disk) =
          translate_newlines os <$> line k disk ∧
        (native_newlines os disk →
         disk_line k (patcher os disk) = disk_line k disk)).
Proof.
  intros HN H8. split.
  - rewrite length_file_lines_patcher.
    split; [done |]. split.
    + apply line_8_patcher. lia.
    + intros k Hk Hne. split.
      * by apply line_other_patcher.
      * apply line_is_Some. lia.
  - split; [| split; [| split]].
    + by rewrite disk_lines_patcher, length_fmap, length_insert.
    + apply disk_line_8_patcher. lia.
    + intros ->. rewrite disk_line_8_patcher by lia. reflexivity.
    + intros k Hk Hne. split.
      * by apply disk_line_other_patcher.
      * intros Hnative.
        by rewrite disk_line_other_patcher, (disk_line_native os).
Qed.

Lemma patcher_replaces_line_8_witness :
  (length (file_lines (patcher Posix ten_lines_crlf)) = 10 ∧
   line 8 (patcher Posix ten_lines_crlf) = Some version_line ∧
   ∀ k, 1 ≤ k ≤ 10 → k ≠ 8 →
        line k (patcher Posix ten_lines_crlf) = line k ten_lines_crlf ∧
        is_Some (line k ten_lines_crlf)) ∧
  (length (disk_lines (patcher Posix ten_lines_crlf)) = 10 ∧
   disk_line 8 (patcher Posix ten_lines_crlf) =
     Some ("CREATED BY : D-Sheet Piling version 19.3.1.27104 "
           +:+ linesep Posix) ∧
   (Posix = Posix →
    disk_line 8 (patcher Posix ten_lines_crlf) = Some version_line) ∧
   ∀ k, 1 ≤ k ≤ 10 → k ≠ 8 →
        disk_line k (patcher Posix ten_lines_crlf) =
          translate_newlines Posix <$> line k ten_lines_crlf ∧
        (native_newlines Posix ten_lines_crlf →
         disk_line k (patcher Posix ten_lines_crlf) =
         disk_line k ten_lines_crlf)).
Proof.
  apply (patcher_replaces_line_8 Posix ten_lines_crlf 10);
    [vm_compute; reflexivity | lia].
Defined.

(** *** Files of fewer than 8 lines *)

Lemma universal_newlines_id (disk : string) :
  has_char CR disk = false → universal_newlines disk = disk.
Proof.
  induction disk as [|c rest IH]; intros Hcr; [done |].
  cbn in Hcr. cbn [universal_newlines].
  destruct (Ascii.eqb c CR); [done |]. by rewrite IH.
Qed.

(** On POSIX the line endings are native exactly when the file holds no
    carriage return. *)
Lemma native_newlines_posix (disk : string) :
  native_newlines Posix disk ↔ has_char CR disk = false.
Proof.
  unfold native_newlines. rewrite translate_newlines_posix. split.
  - intros <-. apply universal_newlines_no_CR.
  - apply universal_newlines_id.
Qed.

(** C2, as stated, fails: a two-line file with ["\r\n"] line endings is
    rewritten with ["\n"] line endings on POSIX, and a two-line file with
    ["\n"] line endings is rewritten with ["\r\n"] line endings on Windows. *)
Lemma short_file_changed :
  (length (file_lines two_lines_crlf) < 8 ∧
   patcher Posix two_lines_crlf = two_lines_lf ∧
   patcher Posix two_lines_crlf ≠ two_lines_crlf) ∧
  (length (file_lines two_lines_lf) < 8 ∧
   patcher Windows two_lines_lf = two_lines_crlf ∧
   patcher Windows two_lines_lf ≠ two_lines_lf).
Proof.
  split;
    (split; [vm_compute; lia |
     split; [vm_compute; reflexivity | vm_compute; discriminate]]).
Qed.

(** C2, amended. For every input file with fewer than 8 lines the
    replacement branch is never taken and the script changes nothing but
    line endings: the rewritten file is the text of the input with every
    line ending stored as the platform's separator.  Its lines and its text
    are those of the input, and it equals the input byte for byte exactly
    when the line endings of the input were the platform's (on POSIX: when
    the input holds no carriage return). *)
Theorem short_file_keeps_text (os : platform) (disk : string) :
  length (file_lines disk) < 8 →
  rewrite_lines (file_lines disk) = universal_newlines disk ∧
  patcher os disk = translate_newlines os (universal_newlines disk) ∧
  file_lines (patcher os disk) = file_lines disk ∧
  universal_newlines (patcher os disk) = universal_newlines disk ∧
  (patcher os disk = disk ↔ native_newlines os disk) ∧
  (patcher Posix disk = disk ↔ has_char CR disk = false).
Proof.
  intros Hlen.
  assert (Hrw : rewrite_lines (file_lines disk) = universal_newlines disk).
  { rewrite rewrite_lines_insert, list_insert_ge by lia.
    apply join_readlines. }
  assert (Hp : patcher os disk = translate_newlines os (universal_newlines disk)).
  { unfold patcher. cbv zeta. by rewrite Hrw. }
  split; [done |]. split; [done |]. split; [| split; [| split]].
  - rewrite file_lines_patcher. apply list_insert_ge. lia.
  - rewrite universal_newlines_patcher, list_insert_ge by lia.
    apply join_readlines.
  - unfold native_newlines. by rewrite Hp.
  - rewrite <- native_newlines_posix. unfold native_newlines, patcher.
    cbv zeta. by rewrite Hrw.
Qed.

Lemma short_file_keeps_text_witness :
  rewrite_lines (file_lines two_lines_crlf) = universal_newlines two_lines_crlf ∧
  patcher Windows two_lines_crlf =
    translate_newlines Windows (universal_newlines two_lines_crlf) ∧
  file_lines (patcher Windows two_lines_crlf) = file_lines two_lines_crlf ∧
  universal_newlines (patcher Windows two_lines_crlf) =
    universal_newlines two_lines_crlf ∧
  (patcher Windows two_lines_crlf = two_lines_crlf ↔
   native_newlines Windows two_lines_crlf) ∧
  (patcher Posix two_lines_crlf = two_lines_crlf ↔
   has_char CR two_lines_crlf = false).
Proof.
  apply (short_file_keeps_text Windows two_lines_crlf). vm_compute. lia.
Defined.

(** *** Idempotence *)

(** C3. Running the script twice leaves the file that running it once
    leaves, byte for byte, on either platform. *)
Theorem patcher_idempotent (os : platform) (disk : string) :
  patcher os (patcher os disk) = patcher os disk.
Proof.
  unfold patcher at 1. cbv zeta.
  rewrite file_lines_patcher, rewrite_lines_insert, list_insert_insert_eq.
  unfold patcher. cbv zeta. by rewrite rewrite_lines_insert.
Qed.

(** *** A last line without terminator *)

Lemma last_char_cons (c : ascii) (s : string) :
  s ≠ "" → last_char (String c s) = last_char s.
Proof. by destruct s. Qed.

Lemma universal_newlines_nonempty (disk : string) :
  disk ≠ "" → universal_newlines disk ≠ "".
Proof.
  destruct disk as [|c [|d rest]]; [done | |]; intros _; cbn;
    repeat case_match; done.
Qed.

(** The last character of the text read is the last character of the file,
    a final carriage return being read as ["\n"]. *)
Lemma last_char_universal_newlines (disk : string) (c : ascii) :
  last_char disk = Some c →
  last_char (universal_newlines disk) = Some (if Ascii.eqb c CR then LF else c).
Proof.
  revert c.
  enough (H : (∀ c, last_char disk = Some c →
                 last_char (universal_newlines disk) =
                 Some (if Ascii.eqb c CR then LF else c)) ∧
              (∀ d c, last_char (String d disk) = Some c →
                 last_char (universal_newlines (String d disk)) =
                 Some (if Ascii.eqb c CR then LF else c)))
    by apply H.
  induction disk as [|e rest [IH1 IH2]].
  - split; [done |]. intros d c [= ->]. cbn. by destruct (Ascii.eqb c CR).
  - split; [apply IH2 |]. intros d c Hc.
    rewrite last_char_cons in Hc by done.
    cbn [universal_newlines]. fold (universal_newlines (String e rest)).
    assert (Hne : universal_newlines (String e rest) ≠ "")
      by by apply universal_newlines_nonempty.
    destruct (Ascii.eqb d CR); [destruct (Ascii.eqb_spec e LF) as [->|He] |].
    + destruct rest as [|r rest].
      * by injection Hc as <-.
      * rewrite last_char_cons by by apply universal_newlines_nonempty.
        apply IH1. by rewrite last_char_cons in Hc.
    + rewrite last_char_cons by done. by apply IH2.
    + rewrite last_char_cons by done. by apply IH2.
Qed.

Lemma wf_lines_nonempty (ls : list string) (i : nat) (l : string) :
  wf_lines ls → ls !! i = Some l → l ≠ "".
Proof.
  intros Hls. revert i.
  induction Hls as [|l0 [Hne _]|l0 ls [body [-> _]] _ IH]; intros i Hi.
  - done.
  - destruct i; [by injection Hi as <- | done].
  - destruct i as [|i]; [| by eapply IH].
    injection Hi as <-. by destruct body.
Qed.

(** The text of a list of lines ends as its last line ends. *)
Lemma last_char_join (ls : list string) (l : string) :
  ls !! (length ls - 1) = Some l → l ≠ "" →
  last_char (join ls) = last_char l.
Proof.
  intros Hl Hne.
  assert (Hlen : length ls ≠ 0) by (destruct ls; [done | cbn; lia]).
  rewrite <- (take_drop (length ls - 1) ls), join_app.
  rewrite (drop_S _ l _ Hl), drop_ge by lia.
  rewrite join_cons. cbn [join foldr]. rewrite app_nil_r.
  destruct l as [|c t]; [done |]. apply last_char_app_cons.
Qed.

Lemma last_char_version_line : last_char version_line = Some LF.
Proof. reflexivity. Qed.

Lemma last_char_translate_version_line (os : platform) (s : string) :
  last_char (translate_newlines os (s +:+ version_line)) = Some LF.
Proof.
  rewrite translate_newlines_app.
  destruct os; vm_compute translate_newlines at 2; apply last_char_app_cons.
Qed.

(** C10, as stated, fails on the bytes of lines 1..7.  A file of 8 lines
    with ["\r\n"] line endings whose 8th line is not terminated, rewritten
    on POSIX, has ["one\n"] as line 1 on disk where the input has
    ["one\r\n"]; rewritten on Windows, a file of 8 lines with ["\n"] line
    endings has as line 8 on disk the version text followed by ["\r\n"],
    not the literal. *)
Lemma first_lines_not_byte_identical :
  (length (file_lines eight_lines_crlf_open) = 8 ∧
   (∃ l8, line 8 eight_lines_crlf_open = Some l8 ∧ last_char l8 ≠ Some LF) ∧
   disk_line 1 eight_lines_crlf_open = Some ("one" +:+ crlf) ∧
   disk_line 1 (patcher Posix eight_lines_crlf_open) = Some ("one" +:+ lf) ∧
   disk_line 1 (patcher Posix eight_lines_crlf_open) ≠
   disk_line 1 eight_lines_crlf_open) ∧
  (length (file_lines eight_lines_open) = 8 ∧
   (∃ l8, line 8 eight_lines_open = Some l8 ∧ last_char l8 ≠ Some LF) ∧
   disk_line 8 (patcher Windows eight_lines_open) =
     Some ("CREATED BY : D-Sheet Piling version 19.3.1.27104 " +:+ crlf) ∧
   disk_line 8 (patcher Windows eight_lines_open) ≠ Some version_line).
Proof.
  split.
  - split; [vm_compute; reflexivity |].
    split; [eexists; split; [vm_compute; reflexivity | vm_compute; discriminate] |].
    split; [vm_compute; reflexivity |].
    split; [vm_compute; reflexivity | vm_compute; discriminate].
  - split; [vm_compute; reflexivity |].
    split; [eexists; split; [vm_compute; reflexivity | vm_compute; discriminate] |].
    split; [vm_compute; reflexivity | vm_compute; discriminate].
Qed.

(** C10, amended. The replacement string ends in a newline character.  For
    every input file of exactly 8 lines the rewritten file ends in a newline
    character; read in text mode its lines 1..7 are those of the input and
    its line 8 is the fixed version line, whether or not line 8 of the input
    was terminated; and when line 8 of the input is not terminated, the
    input does not end in a newline character, so the trailing newline is
    new.  On disk line 8 is the version text followed by the platform's line
    separator, and each of lines 1..7 is the line read with its ending
    stored as the platform's line separator, which is the input's line byte
    for byte when the input's line endings were the platform's. *)
Theorem eight_lines_gain_newline (os : platform) (disk : string) :
  length (file_lines disk) = 8 →
  last_char version_line = Some LF ∧
  last_char (patcher os disk) = Some LF ∧
  length (file_lines (patcher os disk)) = 8 ∧
  (∀ k, 1 ≤ k ≤ 7 →
        line k (patcher os disk) = line k disk ∧ is_Some (line k disk)) ∧
  line 8 (patcher os disk) = Some version_line ∧
  (∀ l8, line 8 disk = Some l8 → last_char l8 ≠ Some LF →
         last_char disk ≠ Some LF ∧ last_char disk ≠ Some CR) ∧
  disk_line 8 (patcher os disk) =
    Some ("CREATED BY : D-Sheet Piling version 19.3.1.27104 "
          +:+ linesep os) ∧
  (∀ k, 1 ≤ k ≤ 7 →
        disk_line k (patcher os disk) =
          translate_newlines os <$> line k disk ∧
        (native_newlines os disk →
         disk_line k (patcher os disk) = disk_line k disk)).
Proof.
  intros Hlen.
  split; [apply last_char_version_line |].
  split; [| split; [| split; [| split; [| split; [| split]]]]].
  - unfold patcher. cbv zeta. rewrite rewrite_lines_insert.
    rewrite insert_take_drop, drop_ge, join_app by lia.
    rewrite join_cons. cbn [join foldr]. rewrite app_nil_r.
    apply last_char_translate_version_line.
  - by rewrite length_file_lines_patcher.
  - intros k Hk7. split.
    + apply line_other_patcher. lia.
    + apply line_is_Some. lia.
  - apply line_8_patcher. lia.
  - intros l8 Hl8 Hopen. unfold line in Hl8.
    assert (Hlast : last_char (universal_newlines disk) = last_char l8).
    { rewrite <- (join_readlines (universal_newlines disk)).
      apply last_char_join.
      - fold (file_lines disk). by rewrite Hlen.
      - eapply wf_lines_nonempty; [apply wf_lines_readlines | exact Hl8]. }
    destruct (last_char disk) as [c|] eqn:Hc; [| done].
    apply last_char_universal_newlines in Hc. rewrite Hlast in Hc.
    split; intros [= ->]; by apply Hopen.
  - apply disk_line_8_patcher. lia.
  - intros k Hk7. split.
    + apply disk_line_other_patcher. lia.
    + intros Hnative.
      rewrite disk_line_other_patcher by lia.
      by rewrite (disk_line_native os).
Qed.

Lemma eight_lines_gain_newline_witness :
  last_char version_line = Some LF ∧
  last_char (patcher Posix eight_lines_crlf_open) = Some LF ∧
  length (file_lines (patcher Posix eight_lines_crlf_open)) = 8 ∧
  (∀ k, 1 ≤ k ≤ 7 →
        line k (patcher Posix eight_lines_crlf_open) =
          line k eight_lines_crlf_open ∧
        is_Some (line k eight_lines_crlf_open)) ∧
  line 8 (patcher Posix eight_lines_crlf_open) = Some version_line ∧
  (∀ l8, line 8 eight_lines_crlf_open = Some l8 → last_char l8 ≠ Some LF →
         last_char eight_lines_crlf_open ≠ Some LF ∧
         last_char eight_lines_crlf_open ≠ Some CR) ∧
  disk_line 8 (patcher Posix eight_lines_crlf_open) =
    Some ("CREATED BY : D-Sheet Piling version 19.3.1.27104 "
          +:+ linesep Posix) ∧
  (∀ k, 1 ≤ k ≤ 7 →
        disk_line k (patcher Posix eight_lines_crlf_open) =
          translate_newlines Posix <$> line k eight_lines_crlf_open ∧
        (native_newlines Posix eight_lines_crlf_open →
         disk_line k (patcher Posix eight_lines_crlf_open) =
         disk_line k eight_lines_crlf_open)).
Proof.
  apply (eight_lines_gain_newline Posix eight_lines_crlf_open).
  vm_compute. reflexivity.
Defined.

End PatcherFacts.

(** ** The model builder *)

Module BuilderFacts.
Import Builder.

Local Open Scope Q_scope.

(** *** Order of calls *)

(** When the calls before position [k] are no [P] calls and the calls from
    position [k] on are no [R] calls, every [R] call precedes every [P]
    call. *)
Lemma calls_split_order (P R : call → bool) (m : model) (k : nat) :
  Forall (λ c, P c = false) (take k m) →
  Forall (λ c, R c = false) (drop k m) →
  ∀ i j a b, m !! i = Some a → R a = true → m !! j = Some b → P b = true →
             (i < j)%nat.
Proof.
  intros Hpre Hpost i j a b Ha HQ Hb HP.
  destruct (decide (i < k)%nat) as [Hik|Hik].
  - destruct (decide (j < k)%nat) as [Hjk|Hjk]; [| lia].
    rewrite Forall_lookup in Hpre.
    specialize (Hpre j b). rewrite lookup_take_lt in Hpre by done.
    rewrite Hpre in HP; done.
  - rewrite Forall_lookup in Hpost.
    specialize (Hpost (i - k)%nat a). rewrite lookup_drop in Hpost.
    replace (k + (i - k))%nat with i in Hpost by lia.
    rewrite Hpost in HQ; done.
Qed.

Lemma registered_soils_cons (c : call) (m : model) :
  registered_soils (c :: m) =
  match c with
  | AddSoil soil => soil_name soil :: registered_soils m
  | _ => registered_soils m
  end.
Proof. by destruct c. Qed.

(** The scan [soils_known] is sound: each profile added names only soils
    seen at the start or registered by an earlier call. *)
Lemma soils_known_sound (m : model) (seen : list string) :
  soils_known seen m = true →
  ∀ j profile side stage l,
    m !! j = Some (AddProfile profile side stage) → l ∈ layers profile →
    soil l ∈ seen ∨ soil l ∈ registered_soils (take j m).
Proof.
  revert seen. induction m as [|c m IH]; intros seen Hscan j p sd st l Hj Hl;
    [done |].
  destruct j as [|j].
  - injection Hj as ->. cbn in Hscan.
    apply andb_prop in Hscan as [Hall _]. left.
    rewrite forallb_forall in Hall.
    apply list_elem_of_In, Hall in Hl. by apply bool_decide_eq_true_1 in Hl.
  - cbn in Hj. cbn [take]. rewrite registered_soils_cons.
    destruct c; cbn in Hscan;
      try (by eapply IH);
      try (apply andb_prop in Hscan as [_ Hscan]; by eapply IH).
    destruct (IH _ Hscan j p sd st l Hj Hl) as [Hseen|Hreg].
    + apply elem_of_cons in Hseen as [->|Hseen]; [right; left | by left].
    + right. by right.
Qed.

(** *** Stages *)

(** C6. The script creates exactly five stages, in the order Initial stage,
    First excavation, Place struts, Wet excavation, Pit dry, each with the
    method KA_KO_KP on the left and on the right. *)
Theorem five_stages_in_order :
  length (stages trace) = 5%nat ∧
  (λ s, s.1.1) <$> stages trace =
    ["Initial stage"; "First excavation"; "Place struts"; "Wet excavation";
     "Pit dry"] ∧
  Forall (λ s, s.1.2 = KA_KO_KP ∧ s.2 = KA_KO_KP) (stages trace).
Proof.
  split; [reflexivity |]. split; [reflexivity |].
  change (stages trace) with
    [("Initial stage", KA_KO_KP, KA_KO_KP);
     ("First excavation", KA_KO_KP, KA_KO_KP);
     ("Place struts", KA_KO_KP, KA_KO_KP);
     ("Wet excavation", KA_KO_KP, KA_KO_KP);
     ("Pit dry", KA_KO_KP, KA_KO_KP)].
  repeat constructor.
Qed.

(** *** Soils and profiles *)

(** C7. The four [add_soil] calls, for Clay, Peat, Sand moderate and Sand
    dense, all precede every [add_profile] call, and every profile added
    names only soils registered by an earlier call. *)
Theorem soils_registered_before_profiles :
  registered_soils trace = ["Clay"; "Peat"; "Sand moderate"; "Sand dense"] ∧
  (∀ i j a b,
     trace !! i = Some a → is_AddSoil a = true →
     trace !! j = Some b → is_AddProfile b = true → (i < j)%nat) ∧
  (∀ j profile side stage l,
     trace !! j = Some (AddProfile profile side stage) → l ∈ layers profile →
     soil l ∈ registered_soils (take j trace)).
Proof.
  split; [reflexivity |]. split.
  - apply (calls_split_order is_AddProfile is_AddSoil trace 11).
    + vm_compute. repeat constructor.
    + vm_compute. repeat constructor.
  - intros j profile side stage l Hj Hl.
    destruct (soils_known_sound trace [] eq_refl j profile side stage l Hj Hl)
      as [Hnil|Hreg]; [| done].
    by apply elem_of_nil in Hnil.
Qed.

Ltac decreasing_tops_by_cases :=
  let i := fresh "i" in
  let Hu := fresh "Hu" in
  let Hl := fresh "Hl" in
  intros i ? ? Hu Hl;
  do 6 (destruct i as [|i];
        [vm_compute in Hu, Hl;
         first [discriminate Hl
               | injection Hu as <-; injection Hl as <-; reflexivity] |]);
  discriminate Hu.

Lemma decreasing_tops_initial : decreasing_tops profile_initial.
Proof. decreasing_tops_by_cases. Qed.

Lemma decreasing_tops_first_excavation :
  decreasing_tops profile_first_excavation.
Proof. decreasing_tops_by_cases. Qed.

Lemma decreasing_tops_pit_dry : decreasing_tops profile_pit_dry.
Proof. decreasing_tops_by_cases. Qed.

(** C8. Each of the three profiles the script constructs, and so every
    profile it passes to [add_profile], has its layers in strictly
    decreasing order of [top_of_layer]. *)
Theorem profiles_strictly_decreasing :
  decreasing_tops profile_initial ∧
  decreasing_tops profile_first_excavation ∧
  decreasing_tops profile_pit_dry ∧
  (∀ p, p ∈ profile_calls trace →
        p ∈ [profile_initial; profile_first_excavation; profile_pit_dry] ∧
        decreasing_tops p).
Proof.
  split; [apply decreasing_tops_initial |].
  split; [apply decreasing_tops_first_excavation |].
  split; [apply decreasing_tops_pit_dry |].
  intros p Hp.
  change (profile_calls trace) with
    [profile_initial; profile_initial; profile_initial; profile_initial;
     profile_initial; profile_first_excavation; profile_first_excavation;
     profile_pit_dry] in Hp.
  repeat (apply elem_of_cons in Hp as [->|Hp]);
    try (by apply elem_of_nil in Hp);
    (split; [rewrite !elem_of_cons; auto |]);
    first [apply decreasing_tops_initial
          | apply decreasing_tops_first_excavation
          | apply decreasing_tops_pit_dry].
Qed.

(** *** Supports and loads *)

(** C9. The script registers one support, the strut [strut1], once for each
    of the stages Place struts, Wet excavation and Pit dry; no strut and no
    anchor is registered for Initial stage or First excavation. *)
Theorem one_strut_three_stages :
  support_calls trace =
    [ (SupportStrut strut1, Some "Place struts");
      (SupportStrut strut1, Some "Wet excavation");
      (SupportStrut strut1, Some "Pit dry") ] ∧
  supports_at trace "Initial stage" = [] ∧
  supports_at trace "First excavation" = [] ∧
  supports_at trace "Place struts" = [SupportStrut strut1] ∧
  supports_at trace "Wet excavation" = [SupportStrut strut1] ∧
  supports_at trace "Pit dry" = [SupportStrut strut1].
Proof. repeat split; reflexivity. Qed.

(** C4. The 20 kPa variable, unfavourable load is registered by [add_load]
    once for each of the stages First excavation, Place struts, Wet
    excavation and Pit dry; the 70 kPa permanent, favourable load is
    registered once, for Pit dry; there is no other [add_load] call, so no
    load is registered twice for a stage and none for Initial stage. *)
Theorem loads_registered_once_per_stage :
  (left_load uniform_load_20kPa = 0 ∧ right_load uniform_load_20kPa = 20 ∧
   verification_load_settings uniform_load_20kPa =
     {| duration_type := VARIABLE; load_type := UNFAVOURABLE |}) ∧
  (left_load uniform_load_pit_dry = 70 ∧ right_load uniform_load_pit_dry = 0 ∧
   verification_load_settings uniform_load_pit_dry =
     {| duration_type := PERMANENT; load_type := FAVOURABLE |}) ∧
  load_calls trace =
    [ (uniform_load_20kPa, Some "First excavation");
      (uniform_load_20kPa, Some "Place struts");
      (uniform_load_20kPa, Some "Wet excavation");
      (uniform_load_20kPa, Some "Pit dry");
      (uniform_load_pit_dry, Some "Pit dry") ] ∧
  NoDup (load_calls trace) ∧
  loads_at trace "Initial stage" = [] ∧
  loads_at trace "First excavation" = [uniform_load_20kPa] ∧
  loads_at trace "Place struts" = [uniform_load_20kPa] ∧
  loads_at trace "Wet excavation" = [uniform_load_20kPa] ∧
  loads_at trace "Pit dry" = [uniform_load_20kPa; uniform_load_pit_dry].
Proof.
  split; [done |]. split; [done |]. split; [reflexivity |].
  split; [| repeat split; reflexivity].
  change (load_calls trace) with
    [ (uniform_load_20kPa, Some "First excavation");
      (uniform_load_20kPa, Some "Place struts");
      (uniform_load_20kPa, Some "Wet excavation");
      (uniform_load_20kPa, Some "Pit dry");
      (uniform_load_pit_dry, Some "Pit dry") ].
  repeat (apply NoDup_cons; split); [.. | apply NoDup_nil_2];
    rewrite ?elem_of_cons, elem_of_nil; intros H;
    repeat (destruct H as [H|H]; [discriminate H |]); done.
Qed.

End BuilderFacts.

(** ** The output patcher: further properties *)

Module PatcherMore.
Import Str StrFacts Patcher PatcherFacts.

(** *** Helpers *)

Lemma length_chars (s : string) : length (chars s) = String.length s.
Proof. induction s as [|c s IH]; [done |]. cbn. by rewrite IH. Qed.

Lemma translate_version_line (os : platform) :
  translate_newlines os version_line =
  "CREATED BY : D-Sheet Piling version 19.3.1.27104 " +:+ linesep os.
Proof. by destruct os. Qed.

Lemma patcher_join (os : platform) (disk : string) :
  patcher os disk =
  translate_newlines os (join (<[7 := version_line]> (file_lines disk))).
Proof. unfold patcher. cbv zeta. by rewrite rewrite_lines_insert. Qed.

Lemma patcher_native (os : platform) (disk : string) :
  native_newlines os (patcher os disk).
Proof.
  unfold native_newlines.
  by rewrite universal_newlines_patcher, patcher_join.
Qed.

Lemma join_file_lines (disk : string) :
  join (file_lines disk) = universal_newlines disk.
Proof. apply join_readlines. Qed.

Lemma join_nil_inv (ls : list string) : wf_lines ls → join ls = "" → ls = [].
Proof.
  intros Hwf Hj. destruct ls as [|l ls]; [done |].
  assert (Hl : l ≠ "") by by apply (wf_lines_nonempty (l :: ls) 0).
  rewrite join_cons in Hj. by destruct l.
Qed.

(** *** The write loop on arbitrary items *)

(** X1. Whatever strings the loop is given (lines or not), it writes them
    in order and unchanged, except that the eighth item, when there is one,
    is replaced by the version line: with fewer than 8 items the file holds
    their concatenation, with 8 or more it holds the first seven, the
    version line, and the items from the ninth on. *)
Theorem write_loop_splices (get_all : list string) :
  (length get_all < 8 → rewrite_lines get_all = join get_all) ∧
  (8 ≤ length get_all →
   rewrite_lines get_all =
   join (take 7 get_all) +:+ version_line +:+ join (drop 8 get_all)).
Proof.
  rewrite rewrite_lines_insert. split; intros Hlen.
  - by rewrite list_insert_ge by lia.
  - by rewrite insert_take_drop, join_app, join_cons by lia.
Qed.

(** X2. [writelines] is called with a string, not a list of lines: it then
    makes one write per character of the string, and what has been written
    before stays in place with exactly the string appended.  So one turn of
    the loop appends the version line when [i] is 8 and the line read
    otherwise. *)
Theorem writelines_of_str (written s : string) (i : nat) :
  length (chars s) = String.length s ∧
  writelines written (chars s) = written +:+ s ∧
  loop_body written (i, s) =
    written +:+ (if Nat.eqb i 8 then version_line else s).
Proof.
  split; [apply length_chars |].
  split; [apply writelines_chars | apply loop_body_app].
Qed.

(** *** Line endings of the rewritten file *)

(** X3. Whatever the line endings of the input, the rewritten file has the
    platform's line endings throughout: writing back its text gives the same
    file, and on POSIX it holds no carriage return. *)
Theorem patcher_output_native (os : platform) (disk : string) :
  native_newlines os (patcher os disk) ∧
  has_char CR (patcher Posix disk) = false.
Proof.
  split; [apply patcher_native |].
  unfold patcher. cbv zeta. rewrite translate_newlines_posix.
  apply rewrite_lines_no_CR, universal_newlines_no_CR.
Qed.

(** X4. The result does not depend on the line endings of the input: a text
    without carriage return stored with Windows line endings and the same
    text stored with POSIX line endings are rewritten to the same file. *)
Theorem patcher_line_ending_blind (os : platform) (text : string) :
  has_char CR text = false →
  patcher os (translate_newlines Windows text) =
  patcher os (translate_newlines Posix text) ∧
  file_lines (translate_newlines Windows text) = readlines text.
Proof.
  intros Hcr. unfold patcher, file_lines. cbv zeta.
  by rewrite !universal_translate.
Qed.

Lemma patcher_line_ending_blind_witness :
  patcher Posix (translate_newlines Windows three_lines_text) =
  patcher Posix (translate_newlines Posix three_lines_text) ∧
  file_lines (translate_newlines Windows three_lines_text) =
  readlines three_lines_text.
Proof.
  apply (patcher_line_ending_blind Posix three_lines_text). reflexivity.
Defined.

(** *** Which files are left as they are *)

(** X5. The script leaves a file byte for byte as it is exactly when the
    file has the platform's line endings and either has fewer than 8 lines
    or already has the version line as its line 8. *)
Theorem patcher_fixed_points (os : platform) (disk : string) :
  patcher os disk = disk ↔
  native_newlines os disk ∧
  (length (file_lines disk) < 8 ∨ line 8 disk = Some version_line).
Proof.
  split.
  - intros Hfix. split.
    + rewrite <- Hfix. apply patcher_native.
    + destruct (decide (length (file_lines disk) < 8)) as [|Hlen];
        [by left | right].
      rewrite <- Hfix. apply line_8_patcher. lia.
  - intros [Hnative Hline].
    rewrite patcher_join.
    replace (<[7 := version_line]> (file_lines disk)) with (file_lines disk).
    + by rewrite join_file_lines.
    + symmetry. destruct Hline as [Hlen|H8].
      * apply list_insert_ge. lia.
      * by apply list_insert_id.
Qed.

(** X6. What line 8 held before has no influence on the result: two files
    with the same number of lines that agree on every line but line 8 are
    rewritten to the same file. *)
Theorem patcher_ignores_line_8 (os : platform) (disk1 disk2 : string) :
  length (file_lines disk1) = length (file_lines disk2) →
  (∀ k, k ≠ 8 → line k disk1 = line k disk2) →
  patcher os disk1 = patcher os disk2.
Proof.
  intros Hlen Hagree. rewrite !patcher_join. do 2 f_equal.
  apply list_eq. intros i. destruct (decide (i = 7)) as [->|Hi].
  - destruct (decide (7 < length (file_lines disk1))) as [Hlt|Hge].
    + rewrite !list_lookup_insert_eq by lia. done.
    + rewrite !list_insert_ge by lia.
      rewrite !lookup_ge_None_2 by lia. done.
  - rewrite !list_lookup_insert_ne by done.
    apply (Hagree (S i)). lia.
Qed.

Lemma patcher_ignores_line_8_witness :
  patcher Windows eight_lines_open = patcher Windows eight_lines_other.
Proof.
  apply (patcher_ignores_line_8 Windows eight_lines_open eight_lines_other).
  - vm_compute. reflexivity.
  - intros k Hk.
    do 8 (destruct k as [|k]; [vm_compute; reflexivity |]).
    destruct k as [|k]; [lia | vm_compute; reflexivity].
Defined.

(** *** Empty files *)

(** X7. An empty file stays empty and only an empty file does: the script
    never empties a file that holds something and never puts the version
    line into a file that holds nothing. *)
Theorem patcher_empty_iff (os : platform) (disk : string) :
  patcher os disk = "" ↔ disk = "".
Proof.
  split.
  - intros Hempty.
    assert (Hj : join (<[7 := version_line]> (file_lines disk)) = "").
    { rewrite <- (universal_newlines_patcher os). by rewrite Hempty. }
    apply join_nil_inv in Hj.
    + assert (Hnil : file_lines disk = []).
      { apply nil_length_inv.
        by rewrite <- (length_insert _ 7 version_line), Hj. }
      destruct disk as [|c rest]; [done |].
      exfalso. apply (universal_newlines_nonempty (String c rest)); [done |].
      by rewrite <- join_file_lines, Hnil.
    + apply wf_lines_insert; [apply terminated_version_line |].
      apply wf_lines_readlines.
  - intros ->. by destruct os.
Qed.

(** *** The bytes of the rewritten file *)

(** X8. For a file of 8 lines or more, the rewritten file is, byte for
    byte: the first seven lines, the text
    ["CREATED BY : D-Sheet Piling version 19.3.1.27104 "] followed by the
    platform's line separator, and the lines from the ninth on, every line
    ending stored as the platform's line separator. *)
Theorem patcher_bytes (os : platform) (disk : string) :
  8 ≤ length (file_lines disk) →
  patcher os disk =
  translate_newlines os (join (take 7 (file_lines disk)))
  +:+ ("CREATED BY : D-Sheet Piling version 19.3.1.27104 " +:+ linesep os)
  +:+ translate_newlines os (join (drop 8 (file_lines disk))).
Proof.
  intros Hlen. rewrite patcher_join.
  rewrite insert_take_drop, join_app, join_cons by lia.
  by rewrite !translate_newlines_app, translate_version_line.
Qed.

Lemma patcher_bytes_witness :
  patcher Windows ten_lines_crlf =
  translate_newlines Windows (join (take 7 (file_lines ten_lines_crlf)))
  +:+ ("CREATED BY : D-Sheet Piling version 19.3.1.27104 "
       +:+ linesep Windows)
  +:+ translate_newlines Windows (join (drop 8 (file_lines ten_lines_crlf))).
Proof.
  apply (patcher_bytes Windows ten_lines_crlf). vm_compute. lia.
Defined.

(** *** Lines and text *)

(** X9. Cutting a text into lines loses nothing and is undone by
    concatenation: the lines read, put end to end, are the text; no line
    read is empty and only the last one can lack its newline; and a list of
    such lines, put end to end and read again, comes back as it was. *)
Theorem readlines_round_trip (text : string) :
  join (readlines text) = text ∧
  wf_lines (readlines text) ∧
  (∀ i l, readlines text !! i = Some l →
          l ≠ "" ∧ (S i < length (readlines text) → last_char l = Some LF)) ∧
  (∀ ls, wf_lines ls → readlines (join ls) = ls).
Proof.
  split; [apply join_readlines |].
  split; [apply wf_lines_readlines |].
  split; [| apply readlines_join].
  intros i l Hl. split.
  - eapply wf_lines_nonempty; [apply wf_lines_readlines | done].
  - generalize (wf_lines_readlines text). revert i Hl.
    generalize (readlines text). clear text.
    intros ls i Hl Hwf. revert i Hl.
    induction Hwf as [|l0 _|l0 ls [body [-> _]] _ IH]; intros i Hl Hlt.
    + done.
    + cbn in Hlt. lia.
    + destruct i as [|i].
      * injection Hl as <-. apply last_char_app_cons.
      * apply (IH i); [done | cbn in Hlt; lia].
Qed.

End PatcherMore.

(** ** The model builder: further properties *)

Module BuilderMore.
Import Builder BuilderFacts.

Local Open Scope Q_scope.

Ltac nodup_by_discriminate :=
  repeat (apply NoDup_cons; split); [.. | apply NoDup_nil_2];
  rewrite ?elem_of_cons, elem_of_nil;
  let H := fresh "H" in
  intros H; repeat (destruct H as [H|H]; [discriminate H |]); exact H.

(** *** Configuration *)

(** X10. The run starts by configuring the model: the first call sets the
    model type (no vertical-balance check, KA_KO_KP, verification) and the
    second sets the construction, top level 0 with the single sheet
    AZ 20-700 S355; no later call configures the model again, so the
    AZ 18-700 and AZ 26-700 property sets the script also builds never reach
    the model. *)
Theorem configuration_first :
  take 2 trace =
    [SetModel modeltype; SetConstruction level_top [sheet_element]] ∧
  Forall (λ c, is_configuration c = false) (drop 2 trace) ∧
  sheet_pile_properties sheet_element = sheet_pile_properties_AZ20_700_S355 ∧
  sheet_pile_properties_AZ18_700_S355 ≠ sheet_pile_properties sheet_element ∧
  sheet_pile_properties_AZ26_700_S355 ≠ sheet_pile_properties sheet_element.
Proof.
  split; [reflexivity |].
  split; [vm_compute; repeat constructor |].
  split; [reflexivity |]. split; discriminate.
Qed.

(** *** Profiles, water levels and surfaces *)

(** X11. The three profiles have the same layers, tops and soils, and no
    pore pressure in their first three layers; they differ only in the pore
    pressures from the layer at -8 down: none in the initial profile, 15 in
    the first-excavation profile, 70 in the pit-dry profile. *)
Theorem profiles_share_strata :
  strata profile_first_excavation = strata profile_initial ∧
  strata profile_pit_dry = strata profile_initial ∧
  pressures profile_initial = replicate 6 (None, None) ∧
  pressures profile_first_excavation =
    (replicate 3 (None, None) ++
     [(None, Some 15); (Some 15, Some 15); (Some 15, Some 15)])%list ∧
  pressures profile_pit_dry =
    (replicate 3 (None, None) ++
     [(None, Some 70); (Some 70, Some 70); (Some 70, Some 70)])%list.
Proof. repeat split; reflexivity. Qed.

(** X12. Water levels are attached exactly where profiles are: the
    [add_head_line] calls name the same sides and stages, in the same order,
    as the [add_profile] calls.  Both sides of all five stages get the
    initial profile (and water level); the left side gets another one in
    First excavation, Place struts and Pit dry, and none in Wet
    excavation. *)
Theorem head_lines_mirror_profiles :
  place <$> head_line_attachments trace = place <$> profile_attachments trace ∧
  profile_attachments trace =
    [ ("Profile initial", BOTH, Some "Initial stage");
      ("Profile initial", BOTH, Some "First excavation");
      ("Profile initial", BOTH, Some "Place struts");
      ("Profile initial", BOTH, Some "Wet excavation");
      ("Profile initial", BOTH, Some "Pit dry");
      ("Profile first excavation", LEFT, Some "First excavation");
      ("Profile first excavation", LEFT, Some "Place struts");
      ("Profile pit dry", LEFT, Some "Pit dry") ] ∧
  NoDup (place <$> profile_attachments trace).
Proof.
  split; [reflexivity |]. split; [reflexivity |].
  change (place <$> profile_attachments trace) with
    [ (BOTH, Some "Initial stage"); (BOTH, Some "First excavation");
      (BOTH, Some "Place struts"); (BOTH, Some "Wet excavation");
      (BOTH, Some "Pit dry"); (LEFT, Some "First excavation");
      (LEFT, Some "Place struts"); (LEFT, Some "Pit dry") ].
  nodup_by_discriminate.
Qed.

(** X13. Every stage has the ground-level surface on the right; on the
    left the excavation to NAP-2 m is attached to First excavation and Place
    struts and the excavation to NAP-8 m to Wet excavation and Pit dry.  No
    side of a stage gets two surfaces, and the left side of Initial stage
    gets none. *)
Theorem surfaces_per_stage :
  surface_attachments trace =
    [ ("Initial surface level", RIGHT, Some "Initial stage");
      ("Initial surface level", RIGHT, Some "First excavation");
      ("Initial surface level", RIGHT, Some "Place struts");
      ("Initial surface level", RIGHT, Some "Wet excavation");
      ("Initial surface level", RIGHT, Some "Pit dry");
      ("Excavated NAP-2 m", LEFT, Some "First excavation");
      ("Excavated NAP-2 m", LEFT, Some "Place struts");
      ("Excavated NAP-8 m", LEFT, Some "Wet excavation");
      ("Excavated NAP-8 m", LEFT, Some "Pit dry") ] ∧
  NoDup (place <$> surface_attachments trace) ∧
  ((LEFT, Some "Initial stage") ∉ (place <$> surface_attachments trace)) ∧
  ((BOTH, Some "Initial stage") ∉ (place <$> surface_attachments trace)).
Proof.
  split; [reflexivity |].
  change (place <$> surface_attachments trace) with
    [ (RIGHT, Some "Initial stage"); (RIGHT, Some "First excavation");
      (RIGHT, Some "Place struts"); (RIGHT, Some "Wet excavation");
      (RIGHT, Some "Pit dry"); (LEFT, Some "First excavation");
      (LEFT, Some "Place struts"); (LEFT, Some "Wet excavation");
      (LEFT, Some "Pit dry") ].
  split; [nodup_by_discriminate |].
  split; rewrite ?elem_of_cons, elem_of_nil; intros H;
    repeat (destruct H as [H|H]; [discriminate H |]); exact H.
Qed.

(** *** Calculation options *)

(** X14. The calculation options are set once (verify sheet piling, EC7-NL,
    method B, reduced deltas), before any per-stage options; the per-stage
    options, partial factor set RC2, are added once for each of First
    excavation, Place struts, Wet excavation and Pit dry, and not for
    Initial stage. *)
Theorem calculation_options_then_per_stage :
  filter is_SetCalculationOptions trace = [SetCalculationOptions calc_options] ∧
  calc_options =
    {| input_calculation_type := VERIFY_SHEETPILING; verify_type := EC7NL;
       ec7_nl_method := METHODB; calc_reduce_deltas := true |} ∧
  (∀ i j a b,
     trace !! i = Some a → is_SetCalculationOptions a = true →
     trace !! j = Some b → is_AddCalculationOptionsPerStage b = true →
     (i < j)%nat) ∧
  options_per_stage_calls trace =
    [ ({| partial_factor_set := RC2 |}, Some "First excavation");
      ({| partial_factor_set := RC2 |}, Some "Place struts");
      ({| partial_factor_set := RC2 |}, Some "Wet excavation");
      ({| partial_factor_set := RC2 |}, Some "Pit dry") ].
Proof.
  split; [reflexivity |]. split; [reflexivity |]. split; [| reflexivity].
  apply (calls_split_order is_AddCalculationOptionsPerStage
           is_SetCalculationOptions trace 37).
  - vm_compute. repeat constructor.
  - vm_compute. repeat constructor.
Qed.

(** *** Writing and running the model *)

(** X15. The run ends with three calls, in this order: the model is written
    to [dsheet_test.shi], executed, and its output printed.  Every call that
    builds the model comes before them: nothing is added to the model after
    it has been written, and it is not executed before it is written. *)
Theorem model_built_before_serialize :
  ∃ building,
    trace = (building ++ [Serialize "dsheet_test.shi"; Execute; PrintOutput])%list ∧
    Forall (λ c, is_final c = false) building ∧
    length building = 49%nat.
Proof.
  exists (take 49 trace).
  split; [reflexivity |]. split; [| reflexivity].
  vm_compute. repeat constructor.
Qed.

End BuilderMore.
